(** * A model of [demo-project/app.py]: the Flask façade over the hosted
    assistant service.

    The remote service is an oracle record [remote]; every call the
    application makes to it is recorded in an event log, together with the
    [time.sleep] calls and the chunks yielded by the streaming generator.
    Python exceptions are values of [exn]; [str(e)] is [exn_msg e]. *)

From Stdlib Require Import String Ascii List Bool ZArith Lia.
From Stdlib Require Import DecimalString.
Import ListNotations.
Open Scope string_scope.
Set Warnings "-register-all".

(** ** Python values used by the code *)

(** A Python exception: its class name and [str(e)]. *)
Record exn := Exn { exn_type : string; exn_msg : string }.

Inductive result (A : Type) : Type :=
| Ok (a : A)
| Err (e : exn).
Arguments Ok {A} a.
Arguments Err {A} e.

(** JSON values as [json.loads] produces them (numbers restricted to
    integers).  An object is the association list of its members, in
    order. *)
Inductive json : Type :=
| JNull
| JBool (b : bool)
| JNum (z : Z)
| JStr (s : string)
| JArr (l : list json)
| JObj (kvs : list (string * json)).

(** Python truthiness of a JSON-decoded value ([if not thread_id]). *)
Definition truthy (j : json) : bool :=
  match j with
  | JNull => false
  | JBool b => b
  | JNum z => negb (Z.eqb z 0)
  | JStr s => negb (String.eqb s "")
  | JArr l => match l with [] => false | _ => true end
  | JObj kvs => match kvs with [] => false | _ => true end
  end.

(** Python truthiness of a [str] ([if assistant_id:]). *)
Definition truthy_str (s : string) : bool := negb (String.eqb s "").

Definition type_name (j : json) : string :=
  match j with
  | JNull => "NoneType"
  | JBool _ => "bool"
  | JNum _ => "int"
  | JStr _ => "str"
  | JArr _ => "list"
  | JObj _ => "dict"
  end.

(** [data.get(key, default)]: the last binding of [key] wins, as in
    [json.loads]; a non-dict has no [get] attribute. *)
Definition py_get (data : json) (key : string) (default : json) : result json :=
  match data with
  | JObj kvs =>
      match find (fun kv => String.eqb (fst kv) key) (rev kvs) with
      | Some (_, v) => Ok v
      | None => Ok default
      end
  | j => Err (Exn "AttributeError"
                ("'" ++ type_name j ++ "' object has no attribute 'get'"))
  end.

(** ** [json.dumps] with its defaults ([ensure_ascii=True], separators
    [", "] and [": "]).  A Python [str] is a string of code points below
    256. *)

Definition dq : ascii := ascii_of_nat 34.
Definition bs : ascii := ascii_of_nat 92.

Definition hex_digit (n : nat) : ascii :=
  if Nat.ltb n 10 then ascii_of_nat (48 + n) else ascii_of_nat (87 + n).

(** The escape of one character ([py_encode_basestring_ascii]). *)
Definition escape_char (c : ascii) : string :=
  let n := nat_of_ascii c in
  if Nat.eqb n 34 then String bs (String dq EmptyString)
  else if Nat.eqb n 92 then String bs (String bs EmptyString)
  else if Nat.eqb n 10 then String bs "n"
  else if Nat.eqb n 13 then String bs "r"
  else if Nat.eqb n 9 then String bs "t"
  else if Nat.eqb n 8 then String bs "b"
  else if Nat.eqb n 12 then String bs "f"
  else if andb (Nat.leb 32 n) (Nat.leb n 126) then String c EmptyString
  else String bs (String "u" (String "0" (String "0"
         (String (hex_digit (n / 16)) (String (hex_digit (n mod 16)) EmptyString))))).

Fixpoint escape (s : string) : string :=
  match s with
  | EmptyString => EmptyString
  | String c s' => escape_char c ++ escape s'
  end.

Definition quote (s : string) : string :=
  String dq (escape s ++ String dq EmptyString).

Fixpoint join (sep : string) (l : list string) : string :=
  match l with
  | [] => ""
  | [x] => x
  | x :: l' => x ++ sep ++ join sep l'
  end.

Fixpoint dumps (j : json) : string :=
  match j with
  | JNull => "null"
  | JBool true => "true"
  | JBool false => "false"
  | JNum z => NilZero.string_of_int (Z.to_int z)
  | JStr s => quote s
  | JArr l => "[" ++ join ", " (map dumps l) ++ "]"
  | JObj kvs =>
      "{" ++ join ", " (map (fun kv => match kv with
                                       | (k, v) => quote k ++ ": " ++ dumps v
                                       end) kvs) ++ "}"
  end.

Definition newline : string := String (ascii_of_nat 10) EmptyString.

(** [f"data: {json.dumps(d)}\n\n"] *)
Definition sse (d : json) : string := "data: " ++ dumps d ++ newline ++ newline.

(** ** The remote service *)

(** A content block of a thread message. *)
Inductive block : Type :=
| TextBlock (value : string)
| ImageFileBlock (file_id : string)
| ImageUrlBlock (url : string).

Record message := Message { msg_role : string; msg_content : list block }.

(** The hosted service, one oracle per operation the code calls.
    [runs_retrieve tid rid n] is the answer to the [n]-th poll of the run
    (counting from 0); [messages_list] lists the thread newest first. *)
Record remote := Remote {
  assistants_retrieve : string -> result unit;
  assistants_create : result string;
  assistants_update : string -> list string -> result unit;
  threads_create : result string;
  messages_create : json -> string -> json -> result unit;
  messages_list : json -> result (list message);
  runs_create : json -> string -> result string;
  runs_retrieve : json -> string -> nat -> result string;
  files_create : list Byte.byte -> string -> result string
}.

(** The calls made to the service, with their arguments. *)
Inductive call : Type :=
| CAssistantsRetrieve (assistant_id : string)
| CAssistantsCreate
| CAssistantsUpdate (assistant_id : string) (file_ids : list string)
| CThreadsCreate
| CMessagesCreate (thread_id : json) (role : string) (content : json)
| CMessagesList (thread_id : json)
| CRunsCreate (thread_id : json) (assistant_id : string)
| CRunsRetrieve (thread_id : json) (run_id : string)
| CFilesCreate (file : list Byte.byte) (purpose : string).

(** Observable events: a remote call, a [time.sleep] (in milliseconds) and
    a chunk yielded by the streaming generator.  The [print] calls of the
    code are not recorded. *)
Inductive event : Type :=
| Call (c : call)
| Sleep (ms : nat)
| Yield (chunk : string).

(** ** A writer/exception monad: the events produced so far, and the value
    or the exception in flight. *)
Definition M (A : Type) : Type := (list event * result A)%type.

Definition ret {A} (a : A) : M A := ([], Ok a).

Definition bind {A B} (m : M A) (k : A -> M B) : M B :=
  match m with
  | (l, Ok a) => let (l', r) := k a in ((l ++ l')%list, r)
  | (l, Err e) => (l, Err e)
  end.

Notation "x <- m ;; k" := (bind m (fun x => k))
  (at level 61, m at next level, right associativity).
Notation "m ;;; k" := (bind m (fun _ => k))
  (at level 61, right associativity).

Definition raise {A} (e : exn) : M A := ([], Err e).

(** [try: m except Exception as e: h(e)] *)
Definition try_ {A} (m : M A) (h : exn -> M A) : M A :=
  match m with
  | (l, Ok a) => (l, Ok a)
  | (l, Err e) => let (l', r) := h e in ((l ++ l')%list, r)
  end.

(** A remote call with its answer. *)
Definition remote_call {A} (c : call) (r : result A) : M A := ([Call c], r).

Definition sleep (ms : nat) : M unit := ([Sleep ms], Ok tt).

Definition yield (chunk : string) : M unit := ([Yield chunk], Ok tt).

(** [xs[0]] *)
Definition index0 {A} (xs : list A) : M A :=
  match xs with
  | x :: _ => ret x
  | [] => raise (Exn "IndexError" "list index out of range")
  end.

(** [block.text.value]: only a text block has a [text] attribute. *)
Definition text_value (b : block) : M string :=
  match b with
  | TextBlock v => ret v
  | ImageFileBlock _ =>
      raise (Exn "AttributeError"
               "'ImageFileContentBlock' object has no attribute 'text'")
  | ImageUrlBlock _ =>
      raise (Exn "AttributeError"
               "'ImageURLContentBlock' object has no attribute 'text'")
  end.

(** ** The application *)

(** *** [get_or_create_assistant] (lines 20-53); [env_id] is
    [os.getenv("ASSISTANT_ID")]. *)
Definition get_or_create_assistant (R : remote) (env_id : option string) : M string :=
  (* [if assistant_id: try: retrieve; return assistant_id  except: None] *)
  early <- (match env_id with
            | Some assistant_id =>
                if truthy_str assistant_id then
                  try_ (remote_call (CAssistantsRetrieve assistant_id)
                          (assistants_retrieve R assistant_id) ;;;
                        ret (Some assistant_id))
                       (fun _ => ret None)
                else ret None
            | None => ret None
            end) ;;
  match early with
  | Some assistant_id => ret assistant_id
  | None =>
      (* [if not assistant_id: assistant = create(...); return assistant.id];
         the final [return assistant_id] is unreachable *)
      remote_call CAssistantsCreate (assistants_create R)
  end.

(** *** The generator [generate] of [chat] (lines 87-114). *)

Definition content_frame (value : string) (thread_id : json) : json :=
  JObj [("content", JStr value); ("thread_id", thread_id)].

Definition error_frame (thread_id : json) : json :=
  JObj [("error", JStr "Assistant run failed"); ("thread_id", thread_id)].

(** One iteration of [while True:]; [true] means [break].  [i] counts the
    polls made so far. *)
Definition poll_step (R : remote) (thread_id : json) (run_id : string) (i : nat)
  : M bool :=
  status <- remote_call (CRunsRetrieve thread_id run_id)
                        (runs_retrieve R thread_id run_id i) ;;
  if String.eqb status "completed" then
    messages <- remote_call (CMessagesList thread_id) (messages_list R thread_id) ;;
    latest_message <- index0 messages ;;
    (if String.eqb (msg_role latest_message) "assistant" then
       b <- index0 (msg_content latest_message) ;;
       value <- text_value b ;;
       yield (sse (content_frame value thread_id))
     else ret tt) ;;;
    ret true
  else if String.eqb status "failed" then
    yield (sse (error_frame thread_id)) ;;;
    ret true
  else
    sleep 500 ;;;
    ret false.

(** How the stream ends: closed after [break], aborted by an exception, or
    still polling when the fuel ran out. *)
Inductive stream_end : Type :=
| Closed
| Raised (e : exn)
| Polling.

(** The stream as consumed by the server, for [fuel] iterations of the
    loop. *)
Fixpoint generate (R : remote) (thread_id : json) (run_id : string)
         (fuel : nat) (i : nat) : list event * stream_end :=
  match fuel with
  | O => ([], Polling)
  | S fuel' =>
      match poll_step R thread_id run_id i with
      | (l, Err e) => (l, Raised e)
      | (l, Ok true) => (l, Closed)
      | (l, Ok false) =>
          let (l', fin) := generate R thread_id run_id fuel' (S i) in
          ((l ++ l')%list, fin)
      end
  end.

(** *** Responses of the views. *)
Inductive response : Type :=
| StreamResponse (mimetype : string) (chunks : list event) (fin : stream_end)
| JsonResponse (status : nat) (body : json)
| Unhandled (e : exn).

Definition error_body (e : exn) : json := JObj [("error", JStr (exn_msg e))].

(** *** [chat] (lines 62-122).  [body] is [request.json]: the decoded
    body, or the exception raised while decoding it; [assistant_id] is the
    module-level [ASSISTANT_ID]. *)
Definition chat (R : remote) (assistant_id : string) (body : result json)
           (fuel : nat) : list event * response :=
  match body with
  | Err e => ([], Unhandled e)
  | Ok data =>
      match py_get data "message" (JStr "") with
      | Err e => ([], Unhandled e)
      | Ok message =>
          match py_get data "thread_id" JNull with
          | Err e => ([], Unhandled e)
          | Ok thread_id0 =>
              let setup : M (json * string) :=
                thread_id <- (if negb (truthy thread_id0) then
                                tid <- remote_call CThreadsCreate (threads_create R) ;;
                                ret (JStr tid)
                              else ret thread_id0) ;;
                remote_call (CMessagesCreate thread_id "user" message)
                            (messages_create R thread_id "user" message) ;;;
                run_id <- remote_call (CRunsCreate thread_id assistant_id)
                                      (runs_create R thread_id assistant_id) ;;
                ret (thread_id, run_id) in
              match setup with
              | (l, Err e) => (l, JsonResponse 500 (error_body e))
              | (l, Ok (thread_id, run_id)) =>
                  let (chunks, fin) := generate R thread_id run_id fuel 0 in
                  (l, StreamResponse "text/event-stream" chunks fin)
              end
          end
      end
  end.

(** *** [upload_file] (lines 124-146).  [files] is [request.files], a
    multi-dict of field name to uploaded file; [files["file"]] is the first
    value of the field. *)
Record file_storage := FileStorage { filename : string; stream : list Byte.byte }.

(** [files[key]] when [key in files]: the first value of the field. *)
Definition lookup_field (files : list (string * file_storage)) (key : string)
  : option file_storage :=
  match find (fun kv => String.eqb (fst kv) key) files with
  | Some (_, f) => Some f
  | None => None
  end.

Definition upload_file (R : remote) (assistant_id : string)
           (files : list (string * file_storage)) : list event * response :=
  match lookup_field files "file" with
  | None => ([], JsonResponse 400 (JObj [("error", JStr "No file provided")]))
  | Some file =>
      let body : M string :=
        openai_file_id <- remote_call (CFilesCreate (stream file) "assistants")
                                      (files_create R (stream file) "assistants") ;;
        remote_call (CAssistantsUpdate assistant_id [openai_file_id])
                    (assistants_update R assistant_id [openai_file_id]) ;;;
        ret openai_file_id in
      match body with
      | (l, Ok fid) => (l, JsonResponse 200 (JObj [("file_id", JStr fid)]))
      | (l, Err e) => (l, JsonResponse 500 (error_body e))
      end
  end.

(** ** Observations on event logs *)

(** The chunks yielded by the stream, in order. *)
Fixpoint frames (l : list event) : list string :=
  match l with
  | [] => []
  | Yield c :: l' => c :: frames l'
  | _ :: l' => frames l'
  end.

Definition is_thread_create (ev : event) : bool :=
  match ev with Call CThreadsCreate => true | _ => false end.

Definition is_assistant_create (ev : event) : bool :=
  match ev with Call CAssistantsCreate => true | _ => false end.

Definition is_assistant_update (ev : event) : bool :=
  match ev with Call (CAssistantsUpdate _ _) => true | _ => false end.

Definition count (p : event -> bool) (l : list event) : nat := length (filter p l).

(** A poll answer that neither ends the loop nor raises: a status other
    than ["completed"] and ["failed"]. *)
Definition is_pending (r : result string) : bool :=
  match r with
  | Ok s => negb (String.eqb s "completed") && negb (String.eqb s "failed")
  | Err _ => false
  end.

(** The events of [n] polls answered with a pending status. *)
Fixpoint poll_wait (thread_id : json) (run_id : string) (n : nat) : list event :=
  match n with
  | O => []
  | S n' => Call (CRunsRetrieve thread_id run_id) :: Sleep 500 :: poll_wait thread_id run_id n'
  end.

(** The service's side of [assistants.update(assistant_id, file_ids=ids)]:
    [ids] becomes the list of files attached to the assistant. *)
Definition apply_update (assistant_id : string) (attached : list string) (ev : event)
  : list string :=
  match ev with
  | Call (CAssistantsUpdate a ids) => if String.eqb a assistant_id then ids else attached
  | _ => attached
  end.

Definition attached_after (assistant_id : string) (attached : list string)
           (l : list event) : list string :=
  fold_left (apply_update assistant_id) l attached.

(** ** Reading the code's output back *)






(** The thread a call is addressed to, if any. *)
Definition call_thread (c : call) : option json :=
  match c with
  | CMessagesCreate t _ _ | CMessagesList t | CRunsCreate t _ | CRunsRetrieve t _ => Some t
  | _ => None
  end.

Definition is_messages_list (ev : event) : bool :=
  match ev with Call (CMessagesList _) => true | _ => false end.

(** The events a stream may produce for thread [tid] and run [rid]. *)
Definition stream_event (tid : json) (rid : string) (ev : event) : Prop :=
  match ev with
  | Call c => c = CRunsRetrieve tid rid \/ c = CMessagesList tid
  | Sleep ms => ms = 500
  | Yield _ => True
  end.

(** A service whose run reports [statuses] in turn (then ["queued"]) and
    whose thread lists [msgs]; every other call succeeds. *)
Definition sample_remote (statuses : list string) (msgs : list message) : remote :=
  {| assistants_retrieve := fun a => if String.eqb a "asst_1" then Ok tt
                                     else Err (Exn "NotFoundError" "No assistant found");
     assistants_create := Ok "asst_new";
     assistants_update := fun _ _ => Ok tt;
     threads_create := Ok "thread_new";
     messages_create := fun _ _ _ => Ok tt;
     messages_list := fun _ => Ok msgs;
     runs_create := fun _ _ => Ok "run_1";
     runs_retrieve := fun _ _ i => Ok (nth i statuses "queued");
     files_create := fun _ _ => Ok "file_1" |}.

Definition reply : list message :=
  [Message "assistant" [TextBlock "hi"]; Message "user" [TextBlock "hello"]].

(** An assistant reply produced by the code-interpreter tool: a chart
    followed by its caption. *)
Definition chart_reply : list message :=
  [Message "assistant" [ImageFileBlock "file-chart"; TextBlock "Here is the chart."];
   Message "user" [TextBlock "plot the data"]].

(** A service on which posting a message to the thread fails. *)
Definition failing_remote : remote :=
  {| assistants_retrieve := fun _ => Ok tt;
     assistants_create := Ok "asst_new";
     assistants_update := fun _ _ => Ok tt;
     threads_create := Ok "thread_new";
     messages_create := fun _ _ _ => Err (Exn "NotFoundError" "No thread found");
     messages_list := fun _ => Ok [];
     runs_create := fun _ _ => Ok "run_1";
     runs_retrieve := fun _ _ _ => Ok "queued";
     files_create := fun _ _ => Err (Exn "APIConnectionError" "Connection error.") |}.

Definition user_last : list message := [Message "user" [TextBlock "hello"]].

Definition statuses_done : nat -> string := fun i => nth i ["queued"; "completed"] "queued".

Definition chat_kvs : list (string * json) := [("message", JStr "hello"); ("thread_id", JStr "thread_1")].

Definition chat_body : json := JObj chat_kvs.

Definition upload_form : list (string * file_storage) :=
  [("file", FileStorage "notes.txt" [Byte.x61; Byte.x62])].

(** A service whose second status poll fails. *)
Definition poll_error_remote : remote :=
  {| assistants_retrieve := fun _ => Ok tt;
     assistants_create := Ok "asst_new";
     assistants_update := fun _ _ => Ok tt;
     threads_create := Ok "thread_new";
     messages_create := fun _ _ _ => Ok tt;
     messages_list := fun _ => Ok [];
     runs_create := fun _ _ => Ok "run_1";
     runs_retrieve := fun _ _ i => if Nat.eqb i 0 then Ok "queued"
                                   else Err (Exn "APIConnectionError" "Connection error.");
     files_create := fun _ _ => Ok "file_1" |}.

(** A service that stores the file but refuses to attach it. *)
Definition update_error_remote : remote :=
  {| assistants_retrieve := fun _ => Ok tt;
     assistants_create := Ok "asst_new";
     assistants_update := fun _ _ => Err (Exn "BadRequestError" "Too many files");
     threads_create := Ok "thread_new";
     messages_create := fun _ _ _ => Ok tt;
     messages_list := fun _ => Ok [];
     runs_create := fun _ _ => Ok "run_1";
     runs_retrieve := fun _ _ _ => Ok "queued";
     files_create := fun _ _ => Ok "file_1" |}.

(** ** Sanity checks on small inputs *)

Example dumps_frame :
  dumps (JObj [("error", JStr "Assistant run failed"); ("thread_id", JStr "thread_1")])
  = "{" ++ quote "error" ++ ": " ++ quote "Assistant run failed" ++ ", "
        ++ quote "thread_id" ++ ": " ++ quote "thread_1" ++ "}".
Proof. reflexivity. Qed.

Example dumps_num : dumps (JArr [JNum (-12); JNull; JBool true]) = "[-12, null, true]".
Proof. reflexivity. Qed.


Example chat_pending_pending_completed :
  chat (sample_remote ["queued"; "in_progress"; "completed"] reply) "asst_1"
       (Ok (JObj [("message", JStr "hello")])) 10
  = ([Call CThreadsCreate;
      Call (CMessagesCreate (JStr "thread_new") "user" (JStr "hello"));
      Call (CRunsCreate (JStr "thread_new") "asst_1")],
     StreamResponse "text/event-stream"
       (poll_wait (JStr "thread_new") "run_1" 2 ++
        [Call (CRunsRetrieve (JStr "thread_new") "run_1");
         Call (CMessagesList (JStr "thread_new"));
         Yield (sse (content_frame "hi" (JStr "thread_new")))])
       Closed).
Proof. reflexivity. Qed.

Example upload_sample :
  upload_file (sample_remote [] []) "asst_1"
    [("file", FileStorage "a.txt" [Byte.x61])]
  = ([Call (CFilesCreate [Byte.x61] "assistants");
      Call (CAssistantsUpdate "asst_1" ["file_1"])],
     JsonResponse 200 (JObj [("file_id", JStr "file_1")])).
Proof. reflexivity. Qed.

Example provision_fallback :
  get_or_create_assistant (sample_remote [] []) (Some "asst_gone")
  = ([Call (CAssistantsRetrieve "asst_gone"); Call CAssistantsCreate], Ok "asst_new").
Proof. reflexivity. Qed.

(** ** The polling loop *)

Open Scope list_scope.

Lemma frames_app (a b : list event) : frames (a ++ b) = frames a ++ frames b.
Proof.
  induction a as [|ev a IH]; [reflexivity|].
  destruct ev; simpl; rewrite ?IH; reflexivity.
Qed.

Lemma poll_step_pending R tid rid i :
  is_pending (runs_retrieve R tid rid i) = true ->
  poll_step R tid rid i = ([Call (CRunsRetrieve tid rid); Sleep 500], Ok false).
Proof.
  unfold poll_step, is_pending; destruct (runs_retrieve R tid rid i) as [s|e];
    [|discriminate].
  simpl; destruct (String.eqb s "completed"), (String.eqb s "failed");
    simpl; congruence.
Qed.

(** A step that does not break polled once, got a pending status and slept. *)
Lemma poll_step_continue R tid rid i l :
  poll_step R tid rid i = (l, Ok false) ->
  l = [Call (CRunsRetrieve tid rid); Sleep 500] /\
  is_pending (runs_retrieve R tid rid i) = true.
Proof.
  unfold poll_step, is_pending; destruct (runs_retrieve R tid rid i) as [s|e];
    simpl; [|congruence].
  destruct (String.eqb s "completed") eqn:Hc.
  - destruct (messages_list R tid) as [ms|e]; simpl; [|congruence].
    destruct ms as [|m ms]; simpl; [congruence|].
    destruct (String.eqb (msg_role m) "assistant"); simpl; [|congruence].
    destruct (msg_content m) as [|b bl]; simpl; [congruence|].
    destruct b; simpl; congruence.
  - destruct (String.eqb s "failed"); simpl; [congruence|].
    intros H; inversion H; auto.
Qed.

(** One step yields nothing, or ends with a single frame of the form
    [{k: v, "thread_id": thread_id}] and breaks. *)
Lemma poll_step_frames R tid rid i l r :
  poll_step R tid rid i = (l, r) ->
  frames l = [] \/
  (exists pre k v, l = pre ++ [Yield (sse (JObj [(k, v); ("thread_id", tid)]))] /\
                   frames pre = [] /\ r = Ok true).
Proof.
  unfold poll_step; destruct (runs_retrieve R tid rid i) as [s|e]; simpl;
    [|intros H; inversion H; subst; auto].
  destruct (String.eqb s "completed").
  - destruct (messages_list R tid) as [ms|e]; simpl;
      [|intros H; inversion H; subst; auto].
    destruct ms as [|m ms]; simpl; [intros H; inversion H; subst; auto|].
    destruct (String.eqb (msg_role m) "assistant"); simpl;
      [|intros H; inversion H; subst; auto].
    destruct (msg_content m) as [|b bl]; simpl;
      [intros H; inversion H; subst; auto|].
    destruct b; simpl; intros H; inversion H; subst; auto.
    right. eexists [_; _], _, _. split; [reflexivity|]. auto.
  - destruct (String.eqb s "failed"); simpl; intros H; inversion H; subst; auto.
    right. eexists [_], _, _. split; [reflexivity|]. auto.
Qed.

Lemma generate_frames R tid rid fuel i evs fin :
  generate R tid rid fuel i = (evs, fin) ->
  frames evs = [] \/
  (exists pre k v, evs = pre ++ [Yield (sse (JObj [(k, v); ("thread_id", tid)]))] /\
                   frames pre = [] /\ fin = Closed).
Proof.
  revert i evs fin; induction fuel as [|fuel IH]; intros i evs fin; simpl.
  - intros H; inversion H; auto.
  - destruct (poll_step R tid rid i) as [l [b|e]] eqn:Hs.
    + destruct b.
      * intros H; inversion H; subst.
        destruct (poll_step_frames _ _ _ _ _ _ Hs) as [?|(pre & k & v & ? & ? & _)];
          [auto|right; exists pre, k, v; auto].
      * destruct (generate R tid rid fuel (S i)) as [l' fin'] eqn:Hg.
        intros H; inversion H; subst.
        destruct (poll_step_continue _ _ _ _ _ Hs) as [-> _].
        destruct (IH _ _ _ Hg) as [Hf|(pre & k & v & -> & Hp & Hc)].
        -- left; rewrite frames_app, Hf; reflexivity.
        -- right; exists (Call (CRunsRetrieve tid rid) :: Sleep 500 :: pre), k, v.
           split; [reflexivity|]. simpl; auto.
    + intros H; inversion H; subst.
      destruct (poll_step_frames _ _ _ _ _ _ Hs) as [?|(_ & _ & _ & _ & _ & Hr)];
        [auto|discriminate].
Qed.

(** [n] pending answers from poll [k] on: [n] polls and sleeps, then the
    loop goes on from poll [n + k]. *)
Lemma generate_pending R tid rid n fuel k :
  (forall j, j < n -> is_pending (runs_retrieve R tid rid (k + j)) = true) ->
  generate R tid rid (n + fuel) k =
  let (l, fin) := generate R tid rid fuel (n + k) in (poll_wait tid rid n ++ l, fin).
Proof.
  revert k; induction n as [|n IH]; intros k Hp.
  - simpl. destruct (generate R tid rid fuel k); reflexivity.
  - simpl. rewrite poll_step_pending by (rewrite <- (Nat.add_0_r k); apply Hp; lia).
    rewrite IH by (intros j Hj; replace (S k + j) with (k + S j) by lia; apply Hp; lia).
    replace (n + S k) with (S (n + k)) by lia.
    destruct (generate R tid rid fuel (S (n + k))); reflexivity.
Qed.

Lemma generate_after_pending R tid rid n fuel :
  n < fuel ->
  (forall j, j < n -> is_pending (runs_retrieve R tid rid j) = true) ->
  generate R tid rid fuel 0 =
  let (l, fin) := generate R tid rid (S (fuel - S n)) n in (poll_wait tid rid n ++ l, fin).
Proof.
  intros Hn Hp.
  replace fuel with (n + S (fuel - S n)) at 1 by lia.
  rewrite (generate_pending R tid rid n _ 0) by exact Hp.
  rewrite Nat.add_0_r. reflexivity.
Qed.

(** When the newest message is an assistant message opening with a text
    block, two pending polls and a completed one give exactly the content
    frame. *)
Lemma stream_two_pending_then_text_reply R tid rid fuel m ms v bl :
  3 <= fuel ->
  is_pending (runs_retrieve R tid rid 0) = true ->
  is_pending (runs_retrieve R tid rid 1) = true ->
  runs_retrieve R tid rid 2 = Ok "completed" ->
  messages_list R tid = Ok (m :: ms) ->
  msg_role m = "assistant" ->
  msg_content m = TextBlock v :: bl ->
  generate R tid rid fuel 0 =
  (poll_wait tid rid 2 ++
   [Call (CRunsRetrieve tid rid); Call (CMessagesList tid);
    Yield (sse (content_frame v tid))], Closed).
Proof.
  intros Hf H0 H1 H2 Hm Hr Hc.
  rewrite (generate_after_pending R tid rid 2 fuel) by
    (lia || (intros [|[|j]] Hj; [exact H0|exact H1|lia])).
  simpl. unfold poll_step. rewrite H2. simpl. rewrite Hm. simpl.
  rewrite Hr. simpl. rewrite Hc. reflexivity.
Qed.

(** ** Claims *)

(** C1 (code_bug).  Claimed: a run polled [pending, pending, completed]
    whose newest message is an assistant message yields exactly one frame
    carrying the first text block's value.  At a reply whose first block is
    an image (the text block comes second), [latest_message.content[0].text]
    raises [AttributeError]: the stream polls three times, sleeps twice,
    lists the messages and aborts without any frame. *)
Theorem c1_chart_reply_aborts_stream :
  chat (sample_remote ["queued"; "in_progress"; "completed"] chart_reply) "asst_1"
       (Ok (JObj [("message", JStr "plot the data"); ("thread_id", JStr "thread_1")])) 10
  = ([Call (CMessagesCreate (JStr "thread_1") "user" (JStr "plot the data"));
      Call (CRunsCreate (JStr "thread_1") "asst_1")],
     StreamResponse "text/event-stream"
       (poll_wait (JStr "thread_1") "run_1" 2 ++
        [Call (CRunsRetrieve (JStr "thread_1") "run_1");
         Call (CMessagesList (JStr "thread_1"))])
       (Raised (Exn "AttributeError"
                  "'ImageFileContentBlock' object has no attribute 'text'"))).
Proof. reflexivity. Qed.

(** C2.  After any number of pending polls, a run reported ["failed"]
    makes the stream emit exactly one frame,
    [{"error": "Assistant run failed", "thread_id": thread_id}], as its last
    event, and close. *)
Theorem c2_failed_run_single_error_frame R tid rid n fuel :
  (forall j, j < n -> is_pending (runs_retrieve R tid rid j) = true) ->
  runs_retrieve R tid rid n = Ok "failed" ->
  n < fuel ->
  generate R tid rid fuel 0 =
  (poll_wait tid rid n ++
   [Call (CRunsRetrieve tid rid);
    Yield (sse (JObj [("error", JStr "Assistant run failed"); ("thread_id", tid)]))],
   Closed).
Proof.
  intros Hp Hn Hf.
  rewrite (generate_after_pending R tid rid n fuel Hf Hp).
  simpl. unfold poll_step. rewrite Hn. reflexivity.
Qed.

(** C3.  Whatever the service answers, the stream yields at most one
    chunk; a chunk is ["data: " ++ json.dumps(obj) ++ "\n\n"] for a JSON
    object [obj], it is the last event of the stream and the stream is then
    closed.  When the run completes and the newest message is not an
    assistant message, the stream closes having yielded nothing. *)
Theorem c3_at_most_one_sse_frame R tid rid fuel evs fin :
  generate R tid rid fuel 0 = (evs, fin) ->
  (frames evs = [] \/
   exists pre kvs, evs = pre ++ [Yield ("data: " ++ dumps (JObj kvs) ++ newline ++ newline)%string]
                   /\ frames pre = [] /\ fin = Closed) /\
  (forall n m ms,
     n < fuel ->
     (forall j, j < n -> is_pending (runs_retrieve R tid rid j) = true) ->
     runs_retrieve R tid rid n = Ok "completed" ->
     messages_list R tid = Ok (m :: ms) ->
     msg_role m <> "assistant" ->
     evs = poll_wait tid rid n ++ [Call (CRunsRetrieve tid rid); Call (CMessagesList tid)]
     /\ frames evs = [] /\ fin = Closed).
Proof.
  intros Hg; split.
  - destruct (generate_frames _ _ _ _ _ _ _ Hg) as [H|(pre & k & v & H1 & H2 & H3)];
      [left; exact H|].
    right; exists pre, [(k, v); ("thread_id", tid)]; auto.
  - intros n m ms Hf Hp Hn Hm Hr.
    rewrite (generate_after_pending R tid rid n fuel Hf Hp) in Hg.
    simpl in Hg. unfold poll_step in Hg. rewrite Hn in Hg. simpl in Hg.
    rewrite Hm in Hg. simpl in Hg.
    apply String.eqb_neq in Hr. rewrite Hr in Hg. simpl in Hg.
    inversion Hg; subst.
    split; [reflexivity|]. split; [|reflexivity].
    rewrite frames_app.
    assert (Hw : forall k, frames (poll_wait tid rid k) = []) by
      (induction k; simpl; auto).
    rewrite Hw. reflexivity.
Qed.

Lemma generate_reaches_terminal R tid rid (st : nat -> string) i k fuel :
  (forall j, runs_retrieve R tid rid j = Ok (st j)) ->
  (st (k + i) = "completed" \/ st (k + i) = "failed") ->
  i < fuel ->
  snd (generate R tid rid fuel k) <> Polling.
Proof.
  intros Hst; revert k fuel; induction i as [|i IH]; intros k fuel Ht Hf;
    destruct fuel as [|fuel]; try lia; simpl.
  - destruct (poll_step R tid rid k) as [l [[|]|e]] eqn:Hs; simpl; try discriminate.
    apply poll_step_continue in Hs as [_ Hp].
    rewrite Hst in Hp. rewrite Nat.add_0_r in Ht. simpl in Hp.
    destruct Ht as [Ht | Ht]; rewrite Ht in Hp; discriminate.
  - destruct (poll_step R tid rid k) as [l [[|]|e]] eqn:Hs; simpl; try discriminate.
    destruct (generate R tid rid fuel (S k)) as [l' fin] eqn:Hg; simpl.
    specialize (IH (S k) fuel). rewrite Hg in IH. apply IH; [|lia].
    replace (S k + i) with (k + S i) by lia. exact Ht.
Qed.

Lemma generate_stops_only_at_terminal R tid rid (st : nat -> string) fuel k :
  (forall j, runs_retrieve R tid rid j = Ok (st j)) ->
  snd (generate R tid rid fuel k) <> Polling ->
  exists i, st i = "completed" \/ st i = "failed".
Proof.
  intros Hst; revert k; induction fuel as [|fuel IH]; intros k; simpl;
    [congruence|].
  destruct (poll_step R tid rid k) as [l [[|]|e]] eqn:Hs; simpl; intros Hne.
  - exists k. unfold poll_step in Hs. rewrite Hst in Hs. simpl in Hs.
    destruct (String.eqb_spec (st k) "completed"); [auto|].
    destruct (String.eqb_spec (st k) "failed"); [auto|]. simpl in Hs.
    inversion Hs.
  - destruct (generate R tid rid fuel (S k)) as [l' fin] eqn:Hg; simpl in Hne.
    apply (IH (S k)). rewrite Hg. exact Hne.
  - exists k. unfold poll_step in Hs. rewrite Hst in Hs. simpl in Hs.
    destruct (String.eqb_spec (st k) "completed"); [auto|].
    destruct (String.eqb_spec (st k) "failed"); [auto|]. simpl in Hs.
    inversion Hs.
Qed.

(** C4.  When every poll answers with a status, the loop ends (for some
    number of iterations) exactly when some answer is the string
    ["completed"] or ["failed"]; when no answer is, every finite prefix of
    the stream is polls and 500 ms sleeps only: no chunk, never closed. *)
Theorem c4_polling_terminates_iff_terminal R tid rid (st : nat -> string) :
  (forall j, runs_retrieve R tid rid j = Ok (st j)) ->
  ((exists fuel, snd (generate R tid rid fuel 0) <> Polling) <->
   (exists i, st i = "completed" \/ st i = "failed")) /\
  ((forall i, st i <> "completed" /\ st i <> "failed") ->
   forall fuel, generate R tid rid fuel 0 = (poll_wait tid rid fuel, Polling)).
Proof.
  intros Hst; split; [split|].
  - intros [fuel H]. exact (generate_stops_only_at_terminal R tid rid st fuel 0 Hst H).
  - intros [i Hi]. exists (S i).
    apply (generate_reaches_terminal R tid rid st i 0); auto.
  - intros Hn fuel.
    assert (Hp : forall j, j < fuel -> is_pending (runs_retrieve R tid rid (0 + j)) = true).
    { intros j _. rewrite Hst. simpl. destruct (Hn j) as [H1 H2].
      apply String.eqb_neq in H1, H2. rewrite H1, H2. reflexivity. }
    pose proof (generate_pending R tid rid fuel 0 0 Hp) as E.
    rewrite Nat.add_0_r in E. rewrite E. simpl.
    rewrite app_nil_r. reflexivity.
Qed.

(** ** The [/chat] view *)

Lemma py_get_obj kvs key d : exists v, py_get (JObj kvs) key d = Ok v.
Proof.
  unfold py_get. destruct (find _ (rev kvs)) as [[k v]|]; eauto.
Qed.

Lemma generate_frame_thread_id R tid rid fuel i evs fin c :
  generate R tid rid fuel i = (evs, fin) ->
  In c (frames evs) ->
  exists k v, c = sse (JObj [(k, v); ("thread_id", tid)]).
Proof.
  intros Hg Hin.
  destruct (generate_frames _ _ _ _ _ _ _ Hg) as [H|(pre & k & v & -> & Hp & _)].
  - rewrite H in Hin. destruct Hin.
  - rewrite frames_app, Hp in Hin. simpl in Hin.
    destruct Hin as [<-|[]]. eauto.
Qed.

(** C5 (counterexample).  A request that supplies ["thread_id": ""] still
    gets a new thread: [if not thread_id] treats the empty string as
    absent, and the frame carries the new id, not the supplied one. *)
Theorem c5_empty_thread_id_creates_thread :
  chat (sample_remote ["completed"] reply) "asst_1"
       (Ok (JObj [("message", JStr "hello"); ("thread_id", JStr "")])) 10
  = ([Call CThreadsCreate;
      Call (CMessagesCreate (JStr "thread_new") "user" (JStr "hello"));
      Call (CRunsCreate (JStr "thread_new") "asst_1")],
     StreamResponse "text/event-stream"
       [Call (CRunsRetrieve (JStr "thread_new") "run_1");
        Call (CMessagesList (JStr "thread_new"));
        Yield (sse (content_frame "hi" (JStr "thread_new")))]
       Closed).
Proof. reflexivity. Qed.

(** C5 (amended).  For a JSON-object body whose ["thread_id"] member (or
    [None] when missing) is [tid0]: if [tid0] is truthy, no thread is
    created and every frame carries [tid0] unchanged; if it is falsy
    (missing, null, [""], ...), exactly one thread-creation call is made and
    every frame carries the id it returned. *)
Theorem c5_thread_id_resolution R aid kvs fuel evs resp tid0 :
  chat R aid (Ok (JObj kvs)) fuel = (evs, resp) ->
  py_get (JObj kvs) "thread_id" JNull = Ok tid0 ->
  (truthy tid0 = true ->
   count is_thread_create evs = 0 /\
   forall chunks fin c,
     resp = StreamResponse "text/event-stream" chunks fin -> In c (frames chunks) ->
     exists k v, c = sse (JObj [(k, v); ("thread_id", tid0)])) /\
  (truthy tid0 = false ->
   count is_thread_create evs = 1 /\
   forall new_id chunks fin c,
     threads_create R = Ok new_id ->
     resp = StreamResponse "text/event-stream" chunks fin -> In c (frames chunks) ->
     exists k v, c = sse (JObj [(k, v); ("thread_id", JStr new_id)])).
Proof.
  intros Hc Ht.
  destruct (py_get_obj kvs "message" (JStr "")) as [msg Hm].
  unfold chat in Hc; cbv beta iota in Hc; rewrite Hm, Ht in Hc; cbv beta iota in Hc.
  split; intros Htr; rewrite Htr in Hc; simpl in Hc.
  - destruct (messages_create R tid0 "user" msg) as [[]|e]; simpl in Hc.
    + destruct (runs_create R tid0 aid) as [rid|e]; simpl in Hc.
      * destruct (generate R tid0 rid fuel 0) as [chunks fin] eqn:Hg.
        inversion Hc; subst. split; [reflexivity|].
        intros chunks' fin' c Hr Hin; inversion Hr; subst.
        eapply generate_frame_thread_id; eauto.
      * inversion Hc; subst. split; [reflexivity|]. discriminate.
    + inversion Hc; subst. split; [reflexivity|]. discriminate.
  - destruct (threads_create R) as [id|e] eqn:Hth; simpl in Hc.
    + destruct (messages_create R (JStr id) "user" msg) as [[]|e]; simpl in Hc.
      * destruct (runs_create R (JStr id) aid) as [rid|e]; simpl in Hc.
        -- destruct (generate R (JStr id) rid fuel 0) as [chunks fin] eqn:Hg.
           inversion Hc; subst. split; [reflexivity|].
           intros new_id chunks' fin' c Hid Hr Hin; inversion Hid; inversion Hr; subst.
           eapply generate_frame_thread_id; eauto.
        -- inversion Hc; subst. split; [reflexivity|]. discriminate.
      * inversion Hc; subst. split; [reflexivity|]. discriminate.
    + inversion Hc; subst. split; [reflexivity|]. discriminate.
Qed.

(** C7 (counterexample).  A body that is valid JSON but not an object
    (here [[]]) makes [data.get] raise [AttributeError] before the [try]:
    the view does not answer with the JSON 500 error body. *)
Theorem c7_non_object_body_unhandled :
  chat (sample_remote [] []) "asst_1" (Ok (JArr [])) 10
  = ([], Unhandled (Exn "AttributeError" "'list' object has no attribute 'get'")).
Proof. reflexivity. Qed.

(** C7 (amended).  For a JSON-object body the view never lets an
    exception escape: it answers with the event stream or with HTTP 500 and
    [{"error": str(e)}]; and an exception raised by the thread-creation,
    message-creation or run-creation call is answered that way. *)
Theorem c7_setup_errors_reported R aid kvs fuel evs resp msg tid0 :
  chat R aid (Ok (JObj kvs)) fuel = (evs, resp) ->
  py_get (JObj kvs) "message" (JStr "") = Ok msg ->
  py_get (JObj kvs) "thread_id" JNull = Ok tid0 ->
  ((exists chunks fin, resp = StreamResponse "text/event-stream" chunks fin) \/
   (exists e, resp = JsonResponse 500 (JObj [("error", JStr (exn_msg e))]))) /\
  (forall e, truthy tid0 = false -> threads_create R = Err e ->
     resp = JsonResponse 500 (error_body e)) /\
  (forall tid e,
     (truthy tid0 = true /\ tid = tid0 \/
      truthy tid0 = false /\ exists id, threads_create R = Ok id /\ tid = JStr id) ->
     (messages_create R tid "user" msg = Err e \/
      messages_create R tid "user" msg = Ok tt /\ runs_create R tid aid = Err e) ->
     resp = JsonResponse 500 (error_body e)).
Proof.
  intros Hc Hm Ht.
  unfold chat in Hc; cbv beta iota in Hc; rewrite Hm, Ht in Hc; cbv beta iota in Hc.
  split; [|split].
  - destruct (truthy tid0); simpl in Hc.
    + destruct (messages_create R tid0 "user" msg) as [[]|e]; simpl in Hc;
        [destruct (runs_create R tid0 aid) as [rid|e]; simpl in Hc|].
      * destruct (generate R tid0 rid fuel 0); inversion Hc; solve [left; eauto | right; eexists; reflexivity].
      * inversion Hc; solve [left; eauto | right; eexists; reflexivity].
      * inversion Hc; solve [left; eauto | right; eexists; reflexivity].
    + destruct (threads_create R) as [id|e]; simpl in Hc; [|inversion Hc; solve [right; eexists; reflexivity]].
      destruct (messages_create R (JStr id) "user" msg) as [[]|e]; simpl in Hc;
        [destruct (runs_create R (JStr id) aid) as [rid|e]; simpl in Hc|].
      * destruct (generate R (JStr id) rid fuel 0); inversion Hc; solve [left; eauto | right; eexists; reflexivity].
      * inversion Hc; solve [left; eauto | right; eexists; reflexivity].
      * inversion Hc; solve [left; eauto | right; eexists; reflexivity].
  - intros e Htr Hth. rewrite Htr in Hc. simpl in Hc. rewrite Hth in Hc.
    simpl in Hc. inversion Hc; reflexivity.
  - intros tid e Hres Hfail.
    assert (Hs : (if negb (truthy tid0) then
                    tid' <- remote_call CThreadsCreate (threads_create R) ;; ret (JStr tid')
                  else ret tid0) = (if truthy tid0 then [] else [Call CThreadsCreate], Ok tid)).
    { destruct Hres as [[-> ->]|[-> [id [-> ->]]]]; reflexivity. }
    rewrite Hs in Hc. simpl in Hc.
    destruct Hfail as [Hf|[Hf Hr]]; rewrite Hf in Hc; simpl in Hc;
      [|rewrite Hr in Hc; simpl in Hc];
      destruct (truthy tid0); simpl in Hc; inversion Hc; reflexivity.
Qed.

(** ** Startup: [get_or_create_assistant] *)

(** C6.  A configured, non-empty [ASSISTANT_ID] that the service
    retrieves is returned as is, after the single retrieval and with no
    creation call.  When the id is not configured (or empty, which Python
    treats as absent), or its retrieval raises, exactly one creation call is
    made and its answer is the result. *)
Theorem c6_reuse_or_create R env_id :
  (forall a, env_id = Some a -> a <> "" -> assistants_retrieve R a = Ok tt ->
   get_or_create_assistant R env_id = ([Call (CAssistantsRetrieve a)], Ok a)) /\
  ((env_id = None \/ env_id = Some "" \/
    exists a e, env_id = Some a /\ assistants_retrieve R a = Err e) ->
   count is_assistant_create (fst (get_or_create_assistant R env_id)) = 1 /\
   snd (get_or_create_assistant R env_id) = assistants_create R).
Proof.
  split.
  - intros a -> Hne Hr. unfold get_or_create_assistant, truthy_str.
    apply String.eqb_neq in Hne. rewrite Hne. simpl. rewrite Hr. reflexivity.
  - intros [-> | [-> | (a & e & -> & Hr)]].
    + unfold get_or_create_assistant; simpl.
      split; reflexivity.
    + unfold get_or_create_assistant; simpl.
      split; reflexivity.
    + unfold get_or_create_assistant.
      destruct (truthy_str a); simpl; [rewrite Hr; simpl|];
        split; reflexivity.
Qed.

(** ** The [/upload] view *)

(** C8.  With a ["file"] field whose upload and assistant update succeed,
    the view makes exactly the upload call and one update call attaching
    the returned id to the assistant, and answers HTTP 200 with
    [{"file_id": id}]. *)
Theorem c8_upload_success R aid files file fid :
  lookup_field files "file" = Some file ->
  files_create R (stream file) "assistants" = Ok fid ->
  assistants_update R aid [fid] = Ok tt ->
  upload_file R aid files =
  ([Call (CFilesCreate (stream file) "assistants"); Call (CAssistantsUpdate aid [fid])],
   JsonResponse 200 (JObj [("file_id", JStr fid)])) /\
  count is_assistant_update (fst (upload_file R aid files)) = 1.
Proof.
  intros Hl Hf Hu.
  assert (E : upload_file R aid files =
    ([Call (CFilesCreate (stream file) "assistants"); Call (CAssistantsUpdate aid [fid])],
     JsonResponse 200 (JObj [("file_id", JStr fid)]))).
  { unfold upload_file. rewrite Hl. simpl. rewrite Hf. simpl. rewrite Hu. reflexivity. }
  rewrite E. split; reflexivity.
Qed.

(** C9.  Without a ["file"] field the view answers HTTP 400 with
    [{"error": "No file provided"}] and calls nothing. *)
Theorem c9_upload_missing_file R aid files :
  lookup_field files "file" = None ->
  upload_file R aid files = ([], JsonResponse 400 (JObj [("error", JStr "No file provided")])).
Proof.
  intros Hl. unfold upload_file. rewrite Hl. reflexivity.
Qed.

(** C10.  A successful upload updates the assistant with [file_ids] equal
    to the singleton of the new id: whatever files were attached before,
    the assistant ends up with that one file only. *)
Theorem c10_upload_replaces_file_ids R aid files file fid attached :
  lookup_field files "file" = Some file ->
  files_create R (stream file) "assistants" = Ok fid ->
  assistants_update R aid [fid] = Ok tt ->
  (forall a ids, In (Call (CAssistantsUpdate a ids)) (fst (upload_file R aid files)) ->
   a = aid /\ ids = [fid]) /\
  attached_after aid attached (fst (upload_file R aid files)) = [fid].
Proof.
  intros Hl Hf Hu.
  assert (E : fst (upload_file R aid files) =
    [Call (CFilesCreate (stream file) "assistants"); Call (CAssistantsUpdate aid [fid])]).
  { unfold upload_file. rewrite Hl. simpl. rewrite Hf. simpl. rewrite Hu. reflexivity. }
  rewrite E. split.
  - simpl. intros a ids [H|[H|[]]]; inversion H; auto.
  - unfold attached_after; simpl. rewrite String.eqb_refl. reflexivity.
Qed.

(** ** The claims at concrete inputs *)

Lemma c2_witness :
  generate (sample_remote ["queued"; "failed"] []) (JStr "thread_1") "run_1" 5 0 =
  (poll_wait (JStr "thread_1") "run_1" 1 ++
   [Call (CRunsRetrieve (JStr "thread_1") "run_1");
    Yield (sse (JObj [("error", JStr "Assistant run failed"); ("thread_id", JStr "thread_1")]))],
   Closed).
Proof.
  apply (c2_failed_run_single_error_frame _ _ _ 1 5);
    [intros [|j] Hj; [reflexivity|lia] | reflexivity | lia].
Defined.

Lemma c3_witness :
  let R := sample_remote ["queued"; "completed"] user_last in
  let g := generate R (JStr "thread_1") "run_1" 5 0 in
  (frames (fst g) = [] \/
   exists pre kvs, fst g = pre ++ [Yield ("data: " ++ dumps (JObj kvs) ++ newline ++ newline)%string]
                   /\ frames pre = [] /\ snd g = Closed) /\
  (forall n m ms,
     n < 5 ->
     (forall j, j < n -> is_pending (runs_retrieve R (JStr "thread_1") "run_1" j) = true) ->
     runs_retrieve R (JStr "thread_1") "run_1" n = Ok "completed" ->
     messages_list R (JStr "thread_1") = Ok (m :: ms) ->
     msg_role m <> "assistant" ->
     fst g = poll_wait (JStr "thread_1") "run_1" n ++
               [Call (CRunsRetrieve (JStr "thread_1") "run_1"); Call (CMessagesList (JStr "thread_1"))]
     /\ frames (fst g) = [] /\ snd g = Closed).
Proof.
  intros R g. apply (c3_at_most_one_sse_frame R (JStr "thread_1") "run_1" 5).
  reflexivity.
Defined.

Lemma c4_witness :
  let R := sample_remote ["queued"; "completed"] reply in
  ((exists fuel, snd (generate R (JStr "thread_1") "run_1" fuel 0) <> Polling) <->
   (exists i, statuses_done i = "completed" \/ statuses_done i = "failed")) /\
  ((forall i, statuses_done i <> "completed" /\ statuses_done i <> "failed") ->
   forall fuel, generate R (JStr "thread_1") "run_1" fuel 0 =
                (poll_wait (JStr "thread_1") "run_1" fuel, Polling)).
Proof.
  intros R. apply (c4_polling_terminates_iff_terminal R _ _ statuses_done).
  intros [|[|j]]; reflexivity.
Defined.

Lemma c5_witness :
  let R := sample_remote ["completed"] reply in
  let c := chat R "asst_1" (Ok chat_body) 10 in
  (truthy (JStr "thread_1") = true ->
   count is_thread_create (fst c) = 0 /\
   forall chunks fin f,
     snd c = StreamResponse "text/event-stream" chunks fin -> In f (frames chunks) ->
     exists k v, f = sse (JObj [(k, v); ("thread_id", JStr "thread_1")])) /\
  (truthy (JStr "thread_1") = false ->
   count is_thread_create (fst c) = 1 /\
   forall new_id chunks fin f,
     threads_create R = Ok new_id ->
     snd c = StreamResponse "text/event-stream" chunks fin -> In f (frames chunks) ->
     exists k v, f = sse (JObj [(k, v); ("thread_id", JStr new_id)])).
Proof.
  intros R c. apply (c5_thread_id_resolution R "asst_1" chat_kvs 10); reflexivity.
Defined.

Lemma c6_witness :
  get_or_create_assistant (sample_remote [] []) (Some "asst_1") =
    ([Call (CAssistantsRetrieve "asst_1")], Ok "asst_1") /\
  (count is_assistant_create (fst (get_or_create_assistant (sample_remote [] []) None)) = 1 /\
   snd (get_or_create_assistant (sample_remote [] []) None) = Ok "asst_new").
Proof.
  split.
  - apply (proj1 (c6_reuse_or_create (sample_remote [] []) (Some "asst_1")));
      [reflexivity | discriminate | reflexivity].
  - apply (proj2 (c6_reuse_or_create (sample_remote [] []) None)). left; reflexivity.
Defined.

Lemma c7_witness :
  snd (chat failing_remote "asst_1" (Ok chat_body) 10) =
  JsonResponse 500 (error_body (Exn "NotFoundError" "No thread found")).
Proof.
  apply (proj2 (proj2 (c7_setup_errors_reported failing_remote "asst_1" chat_kvs 10
           (fst (chat failing_remote "asst_1" (Ok chat_body) 10))
           (snd (chat failing_remote "asst_1" (Ok chat_body) 10))
           (JStr "hello") (JStr "thread_1") eq_refl eq_refl eq_refl))
         (JStr "thread_1")).
  - left; split; reflexivity.
  - left; reflexivity.
Defined.

Lemma c8_witness :
  upload_file (sample_remote [] []) "asst_1" upload_form =
  ([Call (CFilesCreate [Byte.x61; Byte.x62] "assistants");
    Call (CAssistantsUpdate "asst_1" ["file_1"])],
   JsonResponse 200 (JObj [("file_id", JStr "file_1")])) /\
  count is_assistant_update (fst (upload_file (sample_remote [] []) "asst_1" upload_form)) = 1.
Proof.
  apply (c8_upload_success (sample_remote [] []) "asst_1" upload_form
           (FileStorage "notes.txt" [Byte.x61; Byte.x62]) "file_1"); reflexivity.
Defined.

Lemma c9_witness :
  upload_file (sample_remote [] []) "asst_1" [("attachment", FileStorage "a" [])] =
  ([], JsonResponse 400 (JObj [("error", JStr "No file provided")])).
Proof.
  apply c9_upload_missing_file. reflexivity.
Defined.

Lemma c10_witness :
  (forall a ids,
     In (Call (CAssistantsUpdate a ids)) (fst (upload_file (sample_remote [] []) "asst_1" upload_form)) ->
     a = "asst_1" /\ ids = ["file_1"]) /\
  attached_after "asst_1" ["file_0"] (fst (upload_file (sample_remote [] []) "asst_1" upload_form))
  = ["file_1"].
Proof.
  apply (c10_upload_replaces_file_ids (sample_remote [] []) "asst_1" upload_form
           (FileStorage "notes.txt" [Byte.x61; Byte.x62]) "file_1" ["file_0"]); reflexivity.
Defined.

(** ** Further properties of the code *)

(** *** The wire encoding *)














(** *** The stream *)

Lemma count_app p a b : count p (a ++ b) = count p a + count p b.
Proof. unfold count. rewrite filter_app, length_app. reflexivity. Qed.

Ltac stream_events_tac :=
  repeat (apply Forall_cons; [simpl; auto|]); apply Forall_nil.

Ltac reads_leaf :=
  let H := fresh in
  intros H; inversion H; subst;
  split; [stream_events_tac|];
  unfold count; simpl; split; [lia|];
  intros ?; first [discriminate | split; [reflexivity|discriminate]].

Lemma poll_step_reads R tid rid i l r :
  poll_step R tid rid i = (l, r) ->
  Forall (stream_event tid rid) l /\ count is_messages_list l <= 1 /\
  (count is_messages_list l = 1 ->
   runs_retrieve R tid rid i = Ok "completed" /\ r <> Ok false).
Proof.
  unfold poll_step; destruct (runs_retrieve R tid rid i) as [s|e]; simpl; [|reads_leaf].
  destruct (String.eqb s "completed") eqn:Hc.
  - apply String.eqb_eq in Hc; subst s.
    destruct (messages_list R tid) as [ms|e]; simpl; [|reads_leaf].
    destruct ms as [|m ms]; simpl; [reads_leaf|].
    destruct (String.eqb (msg_role m) "assistant"); simpl; [|reads_leaf].
    destruct (msg_content m) as [|b bl]; simpl; [reads_leaf|].
    destruct b; simpl; reads_leaf.
  - destruct (String.eqb s "failed"); simpl; reads_leaf.
Qed.

Lemma generate_reads R tid rid fuel i evs fin :
  generate R tid rid fuel i = (evs, fin) ->
  Forall (stream_event tid rid) evs /\ count is_messages_list evs <= 1 /\
  (count is_messages_list evs = 1 -> exists j, runs_retrieve R tid rid j = Ok "completed").
Proof.
  revert i evs fin.
  induction fuel as [|fuel IH]; intros i evs' fin' Hg; simpl in Hg.
  - inversion Hg; subst. split; [constructor|]. unfold count; simpl.
    split; [lia|discriminate].
  - destruct (poll_step R tid rid i) as [l [[|]|e]] eqn:Hs;
      pose proof (poll_step_reads _ _ _ _ _ _ Hs) as (F & C & L).
    + inversion Hg; subst. split; [exact F|split; [exact C|]].
      intros H1; destruct (L H1); eauto.
    + destruct (generate R tid rid fuel (S i)) as [l' f'] eqn:Hg'.
      inversion Hg; subst.
      destruct (IH _ _ _ Hg') as (F' & C' & L').
      assert (C0 : count is_messages_list l = 0).
      { destruct (count is_messages_list l) as [|[|]] eqn:E; try lia.
        destruct (L eq_refl) as [_ Hn]; congruence. }
      rewrite count_app, C0. simpl.
      split; [apply Forall_app; auto|split; [lia|exact L']].
    + inversion Hg; subst. split; [exact F|split; [exact C|]].
      intros H1; destruct (L H1); eauto.
Qed.


Lemma frames_poll_wait tid rid n : frames (poll_wait tid rid n) = [].
Proof. induction n; simpl; auto. Qed.

(** X4.  A poll that raises after [n] pending polls ends the stream at
    once with that exception: no retry, no frame. *)
Theorem stream_poll_error_aborts R tid rid n fuel e :
  (forall j, j < n -> is_pending (runs_retrieve R tid rid j) = true) ->
  runs_retrieve R tid rid n = Err e ->
  n < fuel ->
  generate R tid rid fuel 0 =
  (poll_wait tid rid n ++ [Call (CRunsRetrieve tid rid)], Raised e).
Proof.
  intros Hp He Hf.
  rewrite (generate_after_pending R tid rid n fuel Hf Hp).
  simpl. unfold poll_step. rewrite He. reflexivity.
Qed.

(** X5.  When the run completes after [n] pending polls, the stream yields
    a frame exactly when the message listing succeeds and its newest
    message is an assistant message whose first block is a text block; the
    frame then carries that text and the thread id. *)
Theorem stream_completion_frame R tid rid n fuel :
  (forall j, j < n -> is_pending (runs_retrieve R tid rid j) = true) ->
  runs_retrieve R tid rid n = Ok "completed" ->
  n < fuel ->
  forall c,
  In c (frames (fst (generate R tid rid fuel 0))) <->
  exists m ms v bl, messages_list R tid = Ok (m :: ms) /\ msg_role m = "assistant" /\
                    msg_content m = TextBlock v :: bl /\ c = sse (content_frame v tid).
Proof.
  intros Hp Hn Hf c.
  rewrite (generate_after_pending R tid rid n fuel Hf Hp).
  simpl. unfold poll_step. rewrite Hn. simpl.
  pose proof (frames_poll_wait tid rid n) as Hw.
  destruct (messages_list R tid) as [ms|e]; simpl.
  2: { rewrite frames_app, Hw. simpl. split; [intros []|intros (? & ? & ? & ? & H & _); discriminate]. }
  destruct ms as [|m ms]; simpl.
  1: { rewrite frames_app, Hw. simpl. split; [intros []|intros (? & ? & ? & ? & H & _); discriminate]. }
  destruct (String.eqb (msg_role m) "assistant") eqn:Hr; simpl.
  2: { rewrite frames_app, Hw. simpl. split; [intros []|].
       intros (m' & ? & ? & ? & H & Hr' & _). inversion H; subst.
       rewrite Hr', String.eqb_refl in Hr. discriminate. }
  apply String.eqb_eq in Hr.
  destruct (msg_content m) as [|b bl] eqn:Hc; simpl.
  1: { rewrite frames_app, Hw. simpl. split; [intros []|].
       intros (m' & ? & ? & ? & H & _ & Hc' & _). inversion H; subst. congruence. }
  destruct b as [v|f|u]; simpl; rewrite frames_app, Hw; simpl.
  - split.
    + intros [<-|[]]. exists m, ms, v, bl. auto.
    + intros (m' & ms' & v' & bl' & H & _ & Hc' & ->). inversion H; subst.
      rewrite Hc in Hc'. inversion Hc'; subst. auto.
  - split; [intros []|].
    intros (m' & ? & ? & ? & H & _ & Hc' & _). inversion H; subst. congruence.
  - split; [intros []|].
    intros (m' & ? & ? & ? & H & _ & Hc' & _). inversion H; subst. congruence.
Qed.

(** *** The [/chat] view *)

Lemma py_get_missing kvs key d :
  ~ In key (map fst kvs) -> py_get (JObj kvs) key d = Ok d.
Proof.
  intros Hn. unfold py_get.
  destruct (find (fun kv => String.eqb (fst kv) key) (rev kvs)) as [[k v]|] eqn:Hf;
    [|reflexivity].
  apply find_some in Hf as [Hin Hk]. apply String.eqb_eq in Hk; simpl in Hk; subst k.
  exfalso; apply Hn. apply in_rev in Hin. apply (in_map fst) in Hin. exact Hin.
Qed.

(** X6.  The message posted to the thread has role ["user"] and is the
    body's ["message"] member as given, or the empty string when the body
    has no such member. *)
Theorem chat_posts_user_message R aid kvs fuel evs resp msg :
  chat R aid (Ok (JObj kvs)) fuel = (evs, resp) ->
  py_get (JObj kvs) "message" (JStr "") = Ok msg ->
  (forall t role content, In (Call (CMessagesCreate t role content)) evs ->
   role = "user" /\ content = msg) /\
  (~ In "message" (map fst kvs) -> msg = JStr "").
Proof.
  intros Hc Hm. split.
  2: { intros Hn. rewrite py_get_missing in Hm by exact Hn. inversion Hm; reflexivity. }
  destruct (py_get_obj kvs "thread_id" JNull) as [tid0 Ht].
  unfold chat in Hc; cbv beta iota in Hc; rewrite Hm, Ht in Hc; cbv beta iota in Hc.
  intros t role content Hin.
  destruct (truthy tid0); simpl in Hc.
  - destruct (messages_create R tid0 "user" msg) as [[]|e]; simpl in Hc;
      [destruct (runs_create R tid0 aid) as [rid|e]; simpl in Hc|];
      [destruct (generate R tid0 rid fuel 0)| |];
      inversion Hc; subst; simpl in Hin;
      repeat (destruct Hin as [Hin|Hin]; [inversion Hin; auto|]); destruct Hin.
  - destruct (threads_create R) as [id|e]; simpl in Hc;
      [|inversion Hc; subst; simpl in Hin;
        repeat (destruct Hin as [Hin|Hin]; [inversion Hin; auto|]); destruct Hin].
    destruct (messages_create R (JStr id) "user" msg) as [[]|e]; simpl in Hc;
      [destruct (runs_create R (JStr id) aid) as [rid|e]; simpl in Hc|];
      [destruct (generate R (JStr id) rid fuel 0)| |];
      inversion Hc; subst; simpl in Hin;
      repeat (destruct Hin as [Hin|Hin]; [inversion Hin; auto|]); destruct Hin.
Qed.

Lemma stream_calls_thread R tid rid fuel evs fin c :
  generate R tid rid fuel 0 = (evs, fin) -> In (Call c) evs ->
  (forall t, call_thread c = Some t -> t = tid) /\
  (forall t r, c = CRunsRetrieve t r -> r = rid).
Proof.
  intros Hg Hin.
  destruct (generate_reads _ _ _ _ _ _ _ Hg) as (F & _ & _).
  rewrite Forall_forall in F. specialize (F _ Hin). simpl in F.
  destruct F as [-> | ->]; simpl; split; intros; congruence.
Qed.

(** X7.  A streamed chat talks to one thread and one run: every call of
    the setup and of the stream that names a thread names the same one, the
    run was created on it for the provisioned assistant, and every poll
    asks for that run. *)
Theorem chat_one_thread_one_run R aid kvs fuel evs chunks fin :
  chat R aid (Ok (JObj kvs)) fuel = (evs, StreamResponse "text/event-stream" chunks fin) ->
  exists tid rid,
    In (Call (CRunsCreate tid aid)) evs /\ runs_create R tid aid = Ok rid /\
    (forall c t, In (Call c) (evs ++ chunks) -> call_thread c = Some t -> t = tid) /\
    (forall t r, In (Call (CRunsRetrieve t r)) chunks -> r = rid).
Proof.
  intros Hc.
  destruct (py_get_obj kvs "message" (JStr "")) as [msg Hm].
  destruct (py_get_obj kvs "thread_id" JNull) as [tid0 Ht].
  unfold chat in Hc; cbv beta iota in Hc; rewrite Hm, Ht in Hc; cbv beta iota in Hc.
  assert (Hs : exists tid pre, (if negb (truthy tid0) then
                    tid' <- remote_call CThreadsCreate (threads_create R) ;; ret (JStr tid')
                  else ret tid0) = (pre, Ok tid) /\
                 forall c, In (Call c) pre -> call_thread c = None).
  { destruct (truthy tid0); simpl.
    - exists tid0, []. split; [reflexivity|intros c []].
    - destruct (threads_create R) as [id|e]; simpl.
      + exists (JStr id), [Call CThreadsCreate]. split; [reflexivity|].
        intros c [H|[]]; inversion H; reflexivity.
      + exfalso. inversion Hc. }
  destruct Hs as (tid & pre & Hs & Hpre). rewrite Hs in Hc. simpl in Hc.
  destruct (messages_create R tid "user" msg) as [[]|e]; simpl in Hc; [|inversion Hc].
  destruct (runs_create R tid aid) as [rid|e] eqn:Hr; simpl in Hc; [|inversion Hc].
  destruct (generate R tid rid fuel 0) as [ch f] eqn:Hg.
  inversion Hc; subst. exists tid, rid.
  split; [apply in_or_app; right; simpl; auto|]. split; [exact Hr|]. split.
  - intros c t Hin Hct. rewrite <- !app_assoc in Hin.
    apply in_app_or in Hin as [Hin|Hin].
    + rewrite (Hpre c Hin) in Hct. discriminate.
    + simpl in Hin. destruct Hin as [Hin|[Hin|Hin]];
        [inversion Hin; subst; simpl in Hct; congruence
        |inversion Hin; subst; simpl in Hct; congruence|].
      apply (proj1 (stream_calls_thread _ _ _ _ _ _ _ Hg Hin)); exact Hct.
  - intros t r Hin. exact (proj2 (stream_calls_thread _ _ _ _ _ _ _ Hg Hin) t r eq_refl).
Qed.

(** X8.  The setup stops at its first failing call: a failed thread
    creation is the only call made, and a failed message post is never
    followed by a run creation. *)
Theorem chat_setup_stops_at_failure R aid kvs fuel evs resp msg tid0 :
  chat R aid (Ok (JObj kvs)) fuel = (evs, resp) ->
  py_get (JObj kvs) "message" (JStr "") = Ok msg ->
  py_get (JObj kvs) "thread_id" JNull = Ok tid0 ->
  (forall e, truthy tid0 = false -> threads_create R = Err e -> evs = [Call CThreadsCreate]) /\
  (forall tid e,
     (truthy tid0 = true /\ tid = tid0 \/
      truthy tid0 = false /\ exists id, threads_create R = Ok id /\ tid = JStr id) ->
     messages_create R tid "user" msg = Err e ->
     forall t a, ~ In (Call (CRunsCreate t a)) evs).
Proof.
  intros Hc Hm Ht.
  unfold chat in Hc; cbv beta iota in Hc; rewrite Hm, Ht in Hc; cbv beta iota in Hc.
  split.
  - intros e Htr Hth. rewrite Htr in Hc. simpl in Hc. rewrite Hth in Hc.
    simpl in Hc. inversion Hc; reflexivity.
  - intros tid e Hres Hf t a.
    assert (Hs : (if negb (truthy tid0) then
                    tid' <- remote_call CThreadsCreate (threads_create R) ;; ret (JStr tid')
                  else ret tid0) = (if truthy tid0 then [] else [Call CThreadsCreate], Ok tid)).
    { destruct Hres as [[-> ->]|[-> [id [-> ->]]]]; reflexivity. }
    rewrite Hs in Hc. simpl in Hc. rewrite Hf in Hc. simpl in Hc.
    destruct (truthy tid0); simpl in Hc; inversion Hc; subst; simpl;
      intros H; repeat (destruct H as [H|H]; [discriminate|]); exact H.
Qed.

(** X9.  A body that is not a JSON object (or cannot be decoded) makes no
    remote call: the view fails before its [try] block. *)
Theorem chat_unreadable_body_no_calls R aid body fuel :
  (forall kvs, body <> Ok (JObj kvs)) ->
  exists e, chat R aid body fuel = ([], Unhandled e).
Proof.
  intros Hb. destruct body as [j|e]; [|exists e; reflexivity].
  destruct j as [| | | | |kvs]; simpl; eauto.
  exfalso; apply (Hb kvs); reflexivity.
Qed.

(** *** The [/upload] view *)

(** X10.  A failed upload never touches the assistant: the only call is
    the upload and the answer is HTTP 500 with its error message. *)
Theorem upload_failure_no_update R aid files file e :
  lookup_field files "file" = Some file ->
  files_create R (stream file) "assistants" = Err e ->
  upload_file R aid files =
  ([Call (CFilesCreate (stream file) "assistants")], JsonResponse 500 (error_body e)).
Proof.
  intros Hl Hf. unfold upload_file. rewrite Hl. simpl. rewrite Hf. reflexivity.
Qed.

(** X11.  When the file is uploaded but attaching it fails, the answer is
    HTTP 500 with the update's error message, and the uploaded file stays
    on the service: nothing undoes the upload. *)
Theorem upload_update_failure R aid files file fid e :
  lookup_field files "file" = Some file ->
  files_create R (stream file) "assistants" = Ok fid ->
  assistants_update R aid [fid] = Err e ->
  upload_file R aid files =
  ([Call (CFilesCreate (stream file) "assistants"); Call (CAssistantsUpdate aid [fid])],
   JsonResponse 500 (error_body e)).
Proof.
  intros Hl Hf Hu. unfold upload_file. rewrite Hl. simpl. rewrite Hf. simpl.
  rewrite Hu. reflexivity.
Qed.

(** ** The further properties at concrete inputs *)

(** Startup provisioning ([get_or_create_assistant], lines 20-53) makes
    one of three call sequences: a single creation, a single retrieval of
    the configured id, or that retrieval followed by one creation.  It never
    updates an assistant and never touches threads or files. *)
Theorem provision_calls R env_id :
  fst (get_or_create_assistant R env_id) = [Call CAssistantsCreate] \/
  exists a, env_id = Some a /\ truthy_str a = true /\
    (fst (get_or_create_assistant R env_id) = [Call (CAssistantsRetrieve a)] \/
     fst (get_or_create_assistant R env_id) =
       [Call (CAssistantsRetrieve a); Call CAssistantsCreate]).
Proof.
  destruct env_id as [a|]; [|left; reflexivity].
  unfold get_or_create_assistant.
  case_eq (truthy_str a); intros Ha; [|left; reflexivity].
  right. exists a. split; [reflexivity|]. split; [exact Ha|].
  destruct (assistants_retrieve R a); [left | right]; reflexivity.
Qed.



Lemma stream_poll_error_aborts_witness :
  generate poll_error_remote (JStr "thread_1") "run_1" 5 0 =
  (poll_wait (JStr "thread_1") "run_1" 1 ++ [Call (CRunsRetrieve (JStr "thread_1") "run_1")],
   Raised (Exn "APIConnectionError" "Connection error.")).
Proof.
  apply (stream_poll_error_aborts _ _ _ 1 5);
    [intros [|j] Hj; [reflexivity|lia] | reflexivity | lia].
Defined.

Lemma stream_completion_frame_witness :
  In (sse (content_frame "hi" (JStr "thread_1")))
     (frames (fst (generate (sample_remote ["queued"; "completed"] reply)
                            (JStr "thread_1") "run_1" 5 0))).
Proof.
  apply (stream_completion_frame (sample_remote ["queued"; "completed"] reply)
           (JStr "thread_1") "run_1" 1 5);
    [intros [|j] Hj; [reflexivity|lia] | reflexivity | lia |].
  exists (Message "assistant" [TextBlock "hi"]), [Message "user" [TextBlock "hello"]], "hi", [].
  repeat split.
Defined.

Lemma chat_posts_user_message_witness :
  In (Call (CMessagesCreate (JStr "thread_1") "user" (JStr "hello")))
     (fst (chat (sample_remote ["completed"] reply) "asst_1" (Ok chat_body) 10)) /\
  ("user" = "user" /\ JStr "hello" = JStr "hello").
Proof.
  split.
  - vm_compute. tauto.
  - apply (proj1 (chat_posts_user_message (sample_remote ["completed"] reply) "asst_1"
                    chat_kvs 10 _ (snd (chat (sample_remote ["completed"] reply) "asst_1"
                                            (Ok chat_body) 10)) (JStr "hello") eq_refl eq_refl)
                 (JStr "thread_1")).
    vm_compute. tauto.
Defined.

Lemma chat_one_thread_one_run_witness :
  exists tid rid,
    In (Call (CRunsCreate tid "asst_1"))
       [Call (CMessagesCreate (JStr "thread_1") "user" (JStr "hello"));
        Call (CRunsCreate (JStr "thread_1") "asst_1")] /\
    runs_create (sample_remote ["completed"] reply) tid "asst_1" = Ok rid /\
    (forall c t, In (Call c)
       ([Call (CMessagesCreate (JStr "thread_1") "user" (JStr "hello"));
         Call (CRunsCreate (JStr "thread_1") "asst_1")] ++
        [Call (CRunsRetrieve (JStr "thread_1") "run_1");
         Call (CMessagesList (JStr "thread_1"));
         Yield (sse (content_frame "hi" (JStr "thread_1")))]) ->
       call_thread c = Some t -> t = tid) /\
    (forall t r, In (Call (CRunsRetrieve t r))
       [Call (CRunsRetrieve (JStr "thread_1") "run_1");
        Call (CMessagesList (JStr "thread_1"));
        Yield (sse (content_frame "hi" (JStr "thread_1")))] -> r = rid).
Proof.
  apply (chat_one_thread_one_run (sample_remote ["completed"] reply) "asst_1" chat_kvs 10
           _ _ Closed).
  reflexivity.
Defined.

Lemma chat_setup_stops_at_failure_witness :
  ~ In (Call (CRunsCreate (JStr "thread_1") "asst_1"))
       (fst (chat failing_remote "asst_1" (Ok chat_body) 10)).
Proof.
  apply (proj2 (chat_setup_stops_at_failure failing_remote "asst_1" chat_kvs 10 _
                  (snd (chat failing_remote "asst_1" (Ok chat_body) 10))
                  (JStr "hello") (JStr "thread_1") eq_refl eq_refl eq_refl)
           (JStr "thread_1") (Exn "NotFoundError" "No thread found")).
  - left; split; reflexivity.
  - reflexivity.
Defined.

Lemma chat_unreadable_body_no_calls_witness :
  exists e, chat (sample_remote [] []) "asst_1" (Ok (JArr [])) 10 = ([], Unhandled e).
Proof.
  apply chat_unreadable_body_no_calls. intros kvs H; discriminate.
Defined.

Lemma upload_failure_no_update_witness :
  upload_file failing_remote "asst_1" upload_form =
  ([Call (CFilesCreate [Byte.x61; Byte.x62] "assistants")],
   JsonResponse 500 (error_body (Exn "APIConnectionError" "Connection error."))).
Proof.
  apply (upload_failure_no_update failing_remote "asst_1" upload_form
           (FileStorage "notes.txt" [Byte.x61; Byte.x62])); reflexivity.
Defined.

Lemma upload_update_failure_witness :
  upload_file update_error_remote "asst_1" upload_form =
  ([Call (CFilesCreate [Byte.x61; Byte.x62] "assistants");
    Call (CAssistantsUpdate "asst_1" ["file_1"])],
   JsonResponse 500 (error_body (Exn "BadRequestError" "Too many files"))).
Proof.
  apply (upload_update_failure update_error_remote "asst_1" upload_form
           (FileStorage "notes.txt" [Byte.x61; Byte.x62]) "file_1"); reflexivity.
Defined.
